(** * Jobly static scripts: the auth guard (auth.js) and the landing-page
      interactivity (script.js)

    A shallow embedding of the two browser scripts of [app/static].  The
    scripts are event handlers that read and write browser state
    ([window], [localStorage], the DOM) and talk to the backend through
    [fetch].  They are modelled as computations in a small state monad
    whose results are JavaScript completions: a handler returns normally,
    throws, or stays suspended at an [await] whose promise never settles.
    The backend and the fallible browser services are oracles gathered in
    an environment record, so that every theorem quantifies over all of
    their behaviours.

    [Js] has the values and the monad; [Auth] is auth.js; [Script] is the
    bookmark control of script.js and the dispatch of a click; [Landing]
    has the other listeners of script.js (hover, icon buttons, same-page
    links) and a page with several bookmark buttons. *)

From Stdlib Require Import Floats.
From stdpp Require Import base option numbers list strings gmap.

Local Open Scope string_scope.
Local Open Scope Z_scope.
Local Set Warnings "-register-all".

(** ** JavaScript values and completions *)

Module Js.

(** The values the scripts handle: what [JSON.parse] produces, plus
    [undefined] and the [Error] objects that are thrown.  Numbers are
    IEEE 754 doubles; an object is a finite map from property names. *)
Inductive Value : Type :=
| VUndefined
| VNull
| VBool (b : bool)
| VNumber (x : float)
| VString (s : string)
| VArray (xs : list Value)
| VObject (props : gmap string Value)
| VError (message : string).

(** ToBoolean. *)
Definition truthy (v : Value) : bool :=
  match v with
  | VUndefined | VNull => false
  | VBool b => b
  | VNumber x => negb (PrimFloat.is_zero x || PrimFloat.is_nan x)
  | VString s => negb (String.eqb s "")
  | VArray _ | VObject _ | VError _ => true
  end.

Definition nullish (v : Value) : bool :=
  match v with
  | VUndefined | VNull => true
  | _ => false
  end.

(** [a ?? b] *)
Definition coalesce (a b : Value) : Value := if nullish a then b else a.

(** How an awaited promise ends. *)
Inductive Settled (A : Type) : Type :=
| Fulfilled (a : A)
| Rejected (reason : Value)
| Pending.
Arguments Fulfilled {A} a.
Arguments Rejected {A} reason.
Arguments Pending {A}.

(** How a piece of code ends: with a value, with a thrown value, or never
    (suspended for good at an [await]). *)
Inductive Completion (A : Type) : Type :=
| Normal (a : A)
| Throw (e : Value)
| Hang.
Arguments Normal {A} a.
Arguments Throw {A} e.
Arguments Hang {A}.

Section Monad.
Context {S : Type}.

Definition M (A : Type) : Type := S -> Completion A * S.

Definition ret {A} (a : A) : M A := fun s => (Normal a, s).

Definition bind {A B} (m : M A) (k : A -> M B) : M B :=
  fun s =>
    match m s with
    | (Normal a, s') => k a s'
    | (Throw e, s') => (Throw e, s')
    | (Hang, s') => (Hang, s')
    end.

Definition throw {A} (e : Value) : M A := fun s => (Throw e, s).

(** [await p] *)
Definition await {A} (p : Settled A) : M A :=
  fun s =>
    match p with
    | Fulfilled a => (Normal a, s)
    | Rejected e => (Throw e, s)
    | Pending => (Hang, s)
    end.

(** [try { m } catch (err) { h err }] *)
Definition try_catch {A} (m : M A) (h : Value -> M A) : M A :=
  fun s =>
    match m s with
    | (Throw e, s') => h e s'
    | r => r
    end.

(** A call of an async function whose promise is dropped: the caller
    goes on whatever happens to the callee.  The callee is run to its
    end at the call; nothing else of the program runs in between. *)
Definition detached {A} (m : M A) : M unit :=
  fun s => (Normal tt, snd (m s)).

Definition modify (f : S -> S) : M unit := fun s => (Normal tt, f s).
Definition gets {A} (f : S -> A) : M A := fun s => (Normal (f s), s).
End Monad.
Arguments M : clear implicits.

(** [v.k] for a property name [k] that is neither [length] nor an index:
    [undefined] and [null] have no properties and the access throws a
    [TypeError]; an object answers with its own property; arrays, strings
    and the other primitives have no such property. *)
Definition get_prop {S} (v : Value) (k : string) : M S Value :=
  match v with
  | VUndefined | VNull => throw (VError "Cannot read properties")
  | VObject props => ret (default VUndefined (props !! k))
  | _ => ret VUndefined
  end.

(** [v?.k] *)
Definition get_prop_opt {S} (v : Value) (k : string) : M S Value :=
  if nullish v then ret VUndefined else get_prop v k.

End Js.

Declare Scope js_scope.
Delimit Scope js_scope with js.
Bind Scope js_scope with Js.M.

Notation "x ← m ; k" := (Js.bind m (fun x => k))
  (at level 20, m at level 100, k at level 200, only parsing) : js_scope.
Notation "m ;; k" := (Js.bind m (fun _ => k))
  (at level 100, k at level 200, only parsing, right associativity) : js_scope.

Local Open Scope js_scope.

(** ** auth.js: the session guard and the logout helper *)

Module Auth.
Import Js.

(** What the script reads of a [Response]: [res.status], [res.ok] and
    [res.json()].  [ok] is the getter of the Fetch standard: the status is
    in the range 200 to 299. *)
Record Response : Type := {
  status : Z;
  json : Settled Value
}.

Definition ok (res : Response) : bool :=
  (200 <=? status res) && (status res <=? 299).

(** The environment of a run: the backend's answer to a request, given by
    URL and method, and the exception, if any, that [localStorage] raises
    when a key is removed. *)
Record Env : Type := {
  network : string -> string -> Settled Response;
  storage_fault : string -> option Value
}.

(** What a run does to the browser and to the outside, in order: requests
    sent, lines written to the console, navigations started, assignments
    to [window.currentUser] and keys removed from [localStorage]. *)
Inductive Effect : Type :=
| Request (method url : string)
| ConsoleError (args : list Value)
| Navigate (url : string)
| AssignCurrentUser (u : Value)
| RemoveItem (k : string).

Inductive Listener : Type :=
| LogoutClick.

(** The browser state the script touches: [window.currentUser],
    [window.SKIP_AUTH_GUARD], [window.location.href], [localStorage], the
    click listeners of [#logoutBtn] when the page has that button, and the
    effects so far. *)
Record World : Type := {
  currentUser : Value;
  SKIP_AUTH_GUARD : Value;
  location_href : string;
  localStorage : gmap string string;
  logoutBtn : option (list Listener);
  effects : list Effect
}.

Definition emit (ev : Effect) (w : World) : World :=
  {| currentUser := currentUser w;
     SKIP_AUTH_GUARD := SKIP_AUTH_GUARD w;
     location_href := location_href w;
     localStorage := localStorage w;
     logoutBtn := logoutBtn w;
     effects := (effects w ++ [ev])%list |}.

(** [window.currentUser = u] *)
Definition set_currentUser (u : Value) : M World unit :=
  modify (fun w =>
    emit (AssignCurrentUser u)
    {| currentUser := u;
       SKIP_AUTH_GUARD := SKIP_AUTH_GUARD w;
       location_href := location_href w;
       localStorage := localStorage w;
       logoutBtn := logoutBtn w;
       effects := effects w |}).

(** [window.location.href = url]: the navigation starts and the script
    goes on. *)
Definition set_location_href (url : string) : M World unit :=
  modify (fun w =>
    emit (Navigate url)
      {| currentUser := currentUser w;
         SKIP_AUTH_GUARD := SKIP_AUTH_GUARD w;
         location_href := url;
         localStorage := localStorage w;
         logoutBtn := logoutBtn w;
         effects := effects w |}).

(** [console.error(...args)] *)
Definition console_error (args : list Value) : M World unit :=
  modify (emit (ConsoleError args)).

(** [fetch(url, { method })]: the request leaves at the call, the promise
    settles as the backend decides. *)
Definition fetch (env : Env) (url method : string)
  : M World (Settled Response) :=
  modify (emit (Request method url));;
  ret (network env url method).

(** [localStorage] without the key [k] (and as it was when [k] is not
    cached). *)
Definition drop_item (k : string) (w : World) : World :=
  emit (RemoveItem k)
    {| currentUser := currentUser w;
       SKIP_AUTH_GUARD := SKIP_AUTH_GUARD w;
       location_href := location_href w;
       localStorage := delete k (localStorage w);
       logoutBtn := logoutBtn w;
       effects := effects w |}.

(** [localStorage.removeItem(k)] *)
Definition removeItem (env : Env) (k : string) : M World unit :=
  fun w =>
    match storage_fault env k with
    | Some e => (Throw e, w)
    | None => (Normal tt, drop_item k w)
    end.

(** [btn.addEventListener('click', l)] on [#logoutBtn] *)
Definition addClickListener (l : Listener) : M World unit :=
  modify (fun w =>
    {| currentUser := currentUser w;
       SKIP_AUTH_GUARD := SKIP_AUTH_GUARD w;
       location_href := location_href w;
       localStorage := localStorage w;
       logoutBtn := (fun ls => (ls ++ [l])%list) <$> logoutBtn w;
       effects := effects w |}).

(** The [try] block of [checkAuth]. *)
Definition checkAuth_try (env : Env) : M World Value :=
  p ← fetch env "/api/me" "GET";
  res ← await p;
  if negb (ok res) then
    if status res =? 401 then
      set_location_href "/login";;
      ret VNull
    else
      throw (VError "Auth check failed")
  else
    data ← await (json res);
    guard ← (if truthy data then get_prop data "user" else ret data);
    (if truthy guard then
       u ← get_prop data "user";
       set_currentUser u
     else ret tt);;
    u ← get_prop_opt data "user";
    ret (coalesce u VNull).

(** The [catch (err)] block of [checkAuth]. *)
Definition checkAuth_catch (err : Value) : M World Value :=
  console_error [VString "Error during auth check:"; err];;
  try_catch (set_location_href "/login") (fun _ => ret tt);;
  ret VNull.

Definition checkAuth (env : Env) : M World Value :=
  try_catch (checkAuth_try env) checkAuth_catch.

Definition doLogout (env : Env) : M World unit :=
  try_catch
    (p ← fetch env "/api/logout" "POST";
     _ ← await p;
     ret tt)
    (fun _ => ret tt);;
  try_catch
    (removeItem env "jobly_user";;
     removeItem env "authEmail";;
     removeItem env "employerRegistration";;
     removeItem env "ultimaVacanteId")
    (fun _ => ret tt);;
  set_location_href "/login".

(** [window.handleLogout = doLogout] *)
Definition handleLogout : Env -> M World unit := doLogout.


(** The [DOMContentLoaded] listener. *)
Definition onDOMContentLoaded (env : Env) : M World unit :=
  btn ← gets logoutBtn;
  (if btn is Some _ then addClickListener LogoutClick else ret tt);;
  skip ← gets SKIP_AUTH_GUARD;
  if negb (truthy skip) then detached (checkAuth env) else ret tt.


End Auth.

(** ** script.js: the bookmark control of a job card *)

Module Script.
Import Js.

(** The part of the page a click on a bookmark button reaches: the
    attributes of the element that [this.querySelector('svg path')] finds
    in the button ([None] when it finds none and answers [null]), the
    lines written with [console.log], and the stop-propagation flag of the
    click being dispatched. *)
Record Page : Type := {
  icon : option (gmap string string);
  console : list string;
  propagation_stopped : bool
}.

(** [e.stopPropagation()] *)
Definition stopPropagation : M Page unit :=
  modify (fun p =>
    {| icon := icon p; console := console p; propagation_stopped := true |}).

(** [svg.getAttribute(name)], [null] for an absent attribute; a
    [TypeError] when [svg] is [null]. *)
Definition getAttribute (name : string) : M Page (option string) :=
  fun p =>
    match icon p with
    | None => (Throw (VError "Cannot read properties of null"), p)
    | Some attrs => (Normal (attrs !! name), p)
    end.

(** [svg.setAttribute(name, value)] *)
Definition setAttribute (name value : string) : M Page unit :=
  fun p =>
    match icon p with
    | None => (Throw (VError "Cannot read properties of null"), p)
    | Some attrs =>
        (Normal tt,
         {| icon := Some (<[name := value]> attrs);
            console := console p;
            propagation_stopped := propagation_stopped p |})
    end.

(** [console.log(line)] *)
Definition console_log (line : string) : M Page unit :=
  modify (fun p =>
    {| icon := icon p;
       console := (console p ++ [line])%list;
       propagation_stopped := propagation_stopped p |}).

(** [x !== 'none'] for the result of [getAttribute] *)
Definition not_none (x : option string) : bool :=
  match x with
  | Some s => negb (String.eqb s "none")
  | None => true
  end.

(** The click listener of every [.bookmark-btn]. *)
Definition bookmark_onclick : M Page unit :=
  stopPropagation;;
  fill ← getAttribute "fill";
  let isFilled := not_none fill in
  if isFilled then
    setAttribute "fill" "none";;
    setAttribute "stroke" "#141514"
  else
    setAttribute "fill" "#141514";;
    setAttribute "stroke" "none".

(** The click listener of every [.job-card]. *)
Definition jobCard_onclick : M Page unit :=
  console_log "Job card clicked".

(** Event dispatch along the bubbling path, target first: each listener
    runs, an exception of a listener is reported and does not end the
    dispatch, and the listeners further up run unless propagation has been
    stopped. *)
Fixpoint dispatch (path : list (M Page unit)) (p : Page) : Page :=
  match path with
  | [] => p
  | l :: up =>
      let p' := snd (l p) in
      if propagation_stopped p' then p' else dispatch up p'
  end.

Definition new_event (p : Page) : Page :=
  {| icon := icon p; console := console p; propagation_stopped := false |}.

(** A click on a bookmark button that sits in a job card. *)
Definition click_bookmark (p : Page) : Page :=
  dispatch [bookmark_onclick; jobCard_onclick] (new_event p).

(** A click on the job card itself. *)
Definition click_jobCard (p : Page) : Page :=
  dispatch [jobCard_onclick] (new_event p).

(** The two attributes the listener writes. *)
Definition fill_stroke (p : Page) : option (option string * option string) :=
  (fun attrs => (attrs !! "fill", attrs !! "stroke")) <$> icon p.

(** The bookmarked flag as the listener reads it. *)
Definition isFilled (p : Page) : option bool :=
  (fun attrs => not_none (attrs !! "fill")) <$> icon p.

End Script.

(** ** script.js: the other listeners of the landing page *)

Module Landing.
Import Js Script.

(** What the hover listeners touch of a [.job-card]: its class tokens and
    the properties assigned to its inline [style]. *)
Record Card : Type := {
  classList : list string;
  style : gmap string string
}.

(** [this.style.prop = value] *)
Definition set_style (prop value : string) (c : Card) : Card :=
  {| classList := classList c; style := <[prop := value]> (style c) |}.

(** [this.classList.contains(token)] *)
Definition contains (c : Card) (token : string) : bool :=
  bool_decide (token ∈ classList c).

(** The [mouseenter] listener of every [.job-card]. *)
Definition jobCard_onmouseenter (c : Card) : Card :=
  set_style "borderColor" "#A2A6A4"
    (set_style "boxShadow"
       "0px 1px 2px 0px rgba(16, 24, 40, 0.08), 0px 1px 3px 0px rgba(16, 24, 40, 0.08)"
       c).

(** The [mouseleave] listener of every [.job-card]. *)
Definition jobCard_onmouseleave (c : Card) : Card :=
  if negb (contains c "job-card-hover") then
    set_style "borderColor" "#CFD4D1" (set_style "boxShadow" "none" c)
  else c.

(** The bookmark buttons of the page, each with the attributes of its
    icon as in [Script.Page], and the console they share. *)
Record Board : Type := {
  icons : list (option (gmap string string));
  lines : list string
}.

(** A click on the [i]-th [.bookmark-btn]: the listener runs with that
    button as [this]; there is nothing to click past the last button. *)
Definition click_bookmark_at (i : nat) (b : Board) : Board :=
  match icons b !! i with
  | None => b
  | Some ic =>
      let p := click_bookmark
                 {| icon := ic; console := lines b;
                    propagation_stopped := false |} in
      {| icons := <[i := icon p]> (icons b); lines := console p |}
  end.

(** [`${label}`]: the string a template literal makes of the result of
    [getAttribute]. *)
Definition template (label : option string) : string :=
  match label with
  | Some s => s
  | None => "null"
  end.

(** The click listener of every [.icon-btn]; [label] is what
    [this.getAttribute('aria-label')] answers. *)
Definition iconBtn_onclick (label : option string) : M Page unit :=
  console_log (template label ++ " clicked").

(** What a click on a same-page link touches: the default-prevented flag
    of the click, and the calls of [scrollIntoView], each with its target,
    [behavior] and [block]. *)
Record Viewport : Type := {
  defaultPrevented : bool;
  scrolled : list (string * string * string)
}.

(** [e.preventDefault()] *)
Definition preventDefault : M Viewport unit :=
  modify (fun v => {| defaultPrevented := true; scrolled := scrolled v |}).

(** [document.querySelector(selector)]: the document answers with the
    first matching element, with [null], or throws when the selector is
    not valid ([None]). *)
Definition querySelector (document : string -> option (option string))
    (selector : string) : M Viewport (option string) :=
  match document selector with
  | Some target => ret target
  | None => throw (VError "SyntaxError")
  end.

(** [target.scrollIntoView({ behavior, block })] *)
Definition scrollIntoView (target behavior block : string) : M Viewport unit :=
  modify (fun v =>
    {| defaultPrevented := defaultPrevented v;
       scrolled := (scrolled v ++ [(target, behavior, block)])%list |}).

(** The click listener of every link whose [href] starts with [#]. *)
Definition anchor_onclick (document : string -> option (option string))
    (href : string) : M Viewport unit :=
  preventDefault;;
  target ← querySelector document href;
  if target is Some el then scrollIntoView el "smooth" "start" else ret tt.

End Landing.

Import Js Auth Script Landing.

(** * Vocabulary of the properties *)

(** ** The auth guard *)

(** The [user] member of a parsed response body, when the body is an
    object that has one. *)
Definition user_field (data : Value) : option Value :=
  match data with
  | VObject props => props !! "user"
  | _ => None
  end.

(** The ways the session check fails other than by a 401, with the value
    that reaches the [catch] block. *)
Inductive check_failure (env : Env) : Value -> Prop :=
| fetch_rejected e :
    network env "/api/me" "GET" = Rejected e ->
    check_failure env e
| bad_status res :
    network env "/api/me" "GET" = Fulfilled res ->
    ok res = false ->
    status res <> 401 ->
    check_failure env (VError "Auth check failed")
| json_rejected res e :
    network env "/api/me" "GET" = Fulfilled res ->
    ok res = true ->
    json res = Rejected e ->
    check_failure env e.

(** Sample runs. *)
Definition sample_user : gmap string Value :=
  {[ "id" := VNumber 7%float; "email" := VString "ana@jobly.test";
     "rol" := VString "empresa" ]}.

Definition anonymous_body : Value :=
  VObject {[ "authenticated" := VBool false ]}.

Definition sample_body : Value :=
  VObject {[ "authenticated" := VBool true; "user" := VObject sample_user ]}.

Definition stale_user : Value :=
  VObject {[ "id" := VNumber 3%float; "email" := VString "old@jobly.test" ]}.

Definition fresh_world : World :=
  {| currentUser := VUndefined;
     SKIP_AUTH_GUARD := VUndefined;
     location_href := "/empresa/panel";
     localStorage := {[ "jobly_user" := "ana"; "authEmail" := "ana@jobly.test";
                        "theme" := "dark" ]};
     logoutBtn := Some [];
     effects := [] |}.

Definition stale_world : World :=
  {| currentUser := stale_user;
     SKIP_AUTH_GUARD := VUndefined;
     location_href := "/empresa/panel";
     localStorage := ∅;
     logoutBtn := None;
     effects := [] |}.

Definition respond (st : Z) (body : Settled Value) : Env :=
  {| network := fun _ _ => Fulfilled {| status := st; json := body |};
     storage_fault := fun _ => None |}.

Definition offline : Env :=
  {| network := fun _ _ => Rejected (VError "Failed to fetch");
     storage_fault := fun _ => None |}.

(** C8, as the specification words it: after every run that returns,
    [window.currentUser] is the user value the run obtained, which is the
    value [checkAuth] returns. *)
Definition overwritten_on_every_check : Prop :=
  forall (env : Env) (w w' : World) (u : Value),
    checkAuth env w = (Normal u, w') -> currentUser w' = u.

(** The keys [doLogout] removes, in the order of the source. *)
Definition logout_keys : list string :=
  ["jobly_user"; "authEmail"; "employerRegistration"; "ultimaVacanteId"].

(** The keys of [ks] up to the first one whose removal throws. *)
Fixpoint until_fault (env : Env) (ks : list string) : list string :=
  match ks with
  | [] => []
  | k :: ks' =>
      match storage_fault env k with
      | Some _ => []
      | None => k :: until_fault env ks'
      end
  end.

Definition remove_all (ks : list string) (m : gmap string string)
  : gmap string string :=
  foldl (fun m k => delete k m) m ks.

Definition storage_blocked : Env :=
  {| network := fun _ _ => Fulfilled {| status := 200; json := Fulfilled VNull |};
     storage_fault := fun _ => Some (VError "SecurityError") |}.

(** The world after [k] has been removed from [localStorage]. *)
Definition without_key (w : World) (k : string) : World := drop_item k w.

(** C5, as the specification words it: after every invocation the four
    keys are gone from [localStorage] and every other key is as before. *)
Definition logout_clears_exactly_four : Prop :=
  forall (env : Env) (w : World) (k : string),
    localStorage (snd (doLogout env w)) !! k =
      if decide (k ∈ logout_keys) then None else localStorage w !! k.

Definition online : Env := respond 204 (Rejected VNull).

Definition public_page : World :=
  {| currentUser := VUndefined;
     SKIP_AUTH_GUARD := VBool true;
     location_href := "/";
     localStorage := ∅;
     logoutBtn := None;
     effects := [] |}.

(** The world once the session request has left. *)
Definition requested (w : World) : World := emit (Request "GET" "/api/me") w.

(** The value [data?.user] of a parsed body. *)
Definition user_value (data : Value) : Value :=
  default VUndefined (user_field data).

(** The ways a run of [checkAuth] ends: suspended, redirected after a 401,
    redirected after the [catch] block, returned without a user, returned
    with the user stored. *)
Inductive guard_outcome (w : World) : Completion Value * World -> Prop :=
| guard_waits :
    guard_outcome w (Hang, requested w)
| guard_unauthenticated :
    guard_outcome w
      (Normal VNull, snd (set_location_href "/login" (requested w)))
| guard_failed e :
    guard_outcome w (Normal VNull, snd (checkAuth_catch e (requested w)))
| guard_anonymous v :
    truthy v = false ->
    guard_outcome w (Normal (coalesce v VNull), requested w)
| guard_signed_in u :
    truthy u = true ->
    guard_outcome w (Normal u, snd (set_currentUser u (requested w))).

(** Effects that are neither a request nor a removal from [localStorage]. *)
Definition local_effect (ev : Effect) : bool :=
  match ev with
  | Request _ _ | RemoveItem _ => false
  | _ => true
  end.


Definition never_answers : Env :=
  {| network := fun _ _ => Pending; storage_fault := fun _ => None |}.

(** ** The bookmark control *)

(** The two looks of the icon, as (fill, stroke). *)
Definition outlined : option string * option string :=
  (Some "none", Some "#141514").
Definition filled : option string * option string :=
  (Some "#141514", Some "none").

(** [n] clicks in a row. *)
Definition clicks (n : nat) (p : Page) : Page := Nat.iter n click_bookmark p.

Definition sample_page (fill : option string) : Page :=
  {| icon := Some (from_option (fun c => {[ "fill" := c ]}) ∅ fill
                   ∪ {[ "d" := "M5 3h14v18l-7-5-7 5z" ]});
     console := ["Buscar clicked"];
     propagation_stopped := false |}.

(** A page after its first click: propagation is stopped and the icon
    has one of the two looks. *)
Definition clicked_page (q : Page) : Prop :=
  propagation_stopped q = true /\
  (fill_stroke q = Some outlined \/ fill_stroke q = Some filled).

(** ** The other listeners of the landing page *)

Definition sample_card : Card :=
  {| classList := ["job-card"];
     style := {[ "borderColor" := "red"; "opacity" := "0.5" ]} |}.

Definition sample_board : Board :=
  {| icons := [Some {[ "fill" := "none" ]}; None; Some ∅];
     lines := [] |}.

Definition sample_document (selector : string) : option (option string) :=
  if String.eqb selector "#" then None
  else if String.eqb selector "#ofertas" then Some (Some "section#ofertas")
  else Some None.

Definition at_top : Viewport := {| defaultPrevented := false; scrolled := [] |}.

(** * Properties of the auth guard *)

Section AuthGuard.

Ltac run :=
  unfold checkAuth, checkAuth_try, checkAuth_catch, doLogout,
    onDOMContentLoaded, fetch, set_location_href, set_currentUser,
    console_error, get_prop_opt, get_prop, detached, try_catch, bind, await,
    ret, throw, modify, gets; simpl.

Lemma ok_401 res : status res = 401 -> ok res = false.
Proof. unfold ok. intros ->. reflexivity. Qed.

(** C1: when [GET /api/me] answers with status 401, [checkAuth] sends the
    one request, navigates to [/login] and returns [null]; it never assigns
    [window.currentUser], which keeps the value it had, and writes nothing
    to the console. *)
Theorem checkAuth_401_redirects (env : Env) (w : World) (res : Response) :
  network env "/api/me" "GET" = Fulfilled res ->
  status res = 401 ->
  exists w',
    checkAuth env w = (Normal VNull, w') /\
    location_href w' = "/login" /\
    effects w' =
      (effects w ++ [Request "GET" "/api/me"; Navigate "/login"])%list /\
    currentUser w' = currentUser w /\
    localStorage w' = localStorage w.
Proof.
  intros Hnet Hst. run. rewrite Hnet, (ok_401 _ Hst), Hst. simpl.
  eexists. split; [reflexivity|]. simpl.
  rewrite <- app_assoc. auto.
Qed.

Lemma checkAuth_401_redirects_witness :
  exists w',
    checkAuth (respond 401 (Rejected VNull)) stale_world = (Normal VNull, w') /\
    location_href w' = "/login" /\
    effects w' =
      (effects stale_world ++
       [Request "GET" "/api/me"; Navigate "/login"])%list /\
    currentUser w' = currentUser stale_world /\
    localStorage w' = localStorage stale_world.
Proof.
  apply (checkAuth_401_redirects (respond 401 (Rejected VNull)) stale_world
           {| status := 401; json := Rejected VNull |}); reflexivity.
Defined.

Lemma truthy_coalesce u : truthy u = true -> coalesce u VNull = u.
Proof. destruct u; simpl; intros; try discriminate; reflexivity. Qed.

(** The guard [if (data && data.user)] lets every truthy [user] member
    through: it is assigned and returned as it is. *)
Lemma checkAuth_stores_truthy_user (env : Env) (w : World) (res : Response)
    (props : gmap string Value) (u : Value) :
  network env "/api/me" "GET" = Fulfilled res ->
  ok res = true ->
  json res = Fulfilled (VObject props) ->
  props !! "user" = Some u ->
  truthy u = true ->
  checkAuth env w =
    (Normal u,
     snd (set_currentUser u (emit (Request "GET" "/api/me") w))).
Proof.
  intros Hnet Hok Hjson Hu Htr. run.
  rewrite Hnet, Hok, Hjson. simpl. rewrite Hu. simpl. rewrite Htr. simpl.
  by rewrite (truthy_coalesce _ Htr).
Qed.

(** C2: when [GET /api/me] answers with an ok status and a JSON body whose
    [user] member is an object, [checkAuth] assigns exactly that object to
    [window.currentUser] and returns it; it sends the one request and does
    not navigate. *)
Theorem checkAuth_stores_user (env : Env) (w : World) (res : Response)
    (props user : gmap string Value) :
  network env "/api/me" "GET" = Fulfilled res ->
  ok res = true ->
  json res = Fulfilled (VObject props) ->
  props !! "user" = Some (VObject user) ->
  exists w',
    checkAuth env w = (Normal (VObject user), w') /\
    currentUser w' = VObject user /\
    effects w' =
      (effects w ++
       [Request "GET" "/api/me"; AssignCurrentUser (VObject user)])%list /\
    location_href w' = location_href w.
Proof.
  intros Hnet Hok Hjson Hu.
  rewrite (checkAuth_stores_truthy_user env w res props (VObject user))
    by done.
  eexists. split; [reflexivity|]. simpl.
  rewrite <- app_assoc. auto.
Qed.

Lemma checkAuth_stores_user_witness :
  exists w',
    checkAuth (respond 200 (Fulfilled sample_body)) stale_world
      = (Normal (VObject sample_user), w') /\
    currentUser w' = VObject sample_user /\
    effects w' =
      (effects stale_world ++
       [Request "GET" "/api/me"; AssignCurrentUser (VObject sample_user)])%list /\
    location_href w' = location_href stale_world.
Proof.
  apply (checkAuth_stores_user _ stale_world
           {| status := 200; json := Fulfilled sample_body |}
           {[ "authenticated" := VBool true; "user" := VObject sample_user ]}
           sample_user); reflexivity.
Defined.

(** A [user] member that is not truthy is returned but not stored. *)
Example checkAuth_empty_string_user :
  checkAuth (respond 200 (Fulfilled (VObject {[ "user" := VString "" ]})))
    stale_world
  = (Normal (VString ""), emit (Request "GET" "/api/me") stale_world).
Proof. reflexivity. Qed.

(** C7: when [GET /api/me] answers with an ok status and a JSON body that
    has no [user] member (an object without it, [null], or any other JSON
    value), [checkAuth] returns [null] and does nothing but send the
    request: [window.currentUser] is not assigned. *)
Theorem checkAuth_no_user (env : Env) (w : World) (res : Response)
    (data : Value) :
  network env "/api/me" "GET" = Fulfilled res ->
  ok res = true ->
  json res = Fulfilled data ->
  user_field data = None ->
  checkAuth env w = (Normal VNull, emit (Request "GET" "/api/me") w) /\
  currentUser (snd (checkAuth env w)) = currentUser w.
Proof.
  intros Hnet Hok Hjson Hu. run. rewrite Hnet, Hok, Hjson. simpl.
  destruct data; simpl in *; try (split; reflexivity).
  - destruct b; split; reflexivity.
  - destruct (negb _) eqn:E; simpl; rewrite ?E; split; reflexivity.
  - destruct (negb _) eqn:E; simpl; rewrite ?E; split; reflexivity.
  - rewrite Hu. split; reflexivity.
Qed.

Lemma checkAuth_no_user_witness :
  checkAuth (respond 200 (Fulfilled anonymous_body)) stale_world
  = (Normal VNull, emit (Request "GET" "/api/me") stale_world) /\
  currentUser
    (snd (checkAuth (respond 200 (Fulfilled anonymous_body)) stale_world))
  = currentUser stale_world.
Proof.
  apply (checkAuth_no_user _ stale_world
           {| status := 200; json := Fulfilled anonymous_body |}
           anonymous_body); reflexivity.
Defined.

(** The [try] block of [checkAuth] throws in the three failure modes and
    in no other run; by then it has sent the request and done nothing else. *)
Lemma checkAuth_try_throws (env : Env) (w w1 : World) (e : Value) :
  checkAuth_try env w = (Throw e, w1) <->
  check_failure env e /\ w1 = emit (Request "GET" "/api/me") w.
Proof.
  split.
  - run. destruct (network env _ _) as [res|e0|] eqn:Hnet; simpl;
      [|intros [= <- <-]; split; [by apply fetch_rejected|done]|done].
    destruct (ok res) eqn:Hok; simpl.
    + destruct (json res) as [data|e0|] eqn:Hjson; simpl;
        [|intros [= <- <-]; split; [by eapply json_rejected|done]|done].
      destruct data; simpl; try done.
      * by destruct b.
      * destruct (negb _) eqn:E; simpl; rewrite ?E; done.
      * destruct (negb _) eqn:E; simpl; rewrite ?E; done.
      * destruct (truthy (default VUndefined (props !! "user"))); done.
    + destruct (status res =? 401) eqn:Hst; simpl; [done|].
      intros [= <- <-]. split; [|done].
      eapply bad_status; eauto. by apply Z.eqb_neq.
  - intros [Hf ->]. run.
    destruct Hf as [e Hnet|res Hnet Hok Hst|res e Hnet Hok Hjson];
      rewrite Hnet; simpl; [done| |].
    + rewrite Hok. simpl. apply Z.eqb_neq in Hst. by rewrite Hst.
    + rewrite Hok. simpl. by rewrite Hjson.
Qed.

(** C3: when the session check fails other than by a 401 (a response that
    is not ok with another status, a rejected [fetch], a body that does not
    parse), [checkAuth] first writes the error to the console and then
    navigates to [/login]; it returns [null] and leaves
    [window.currentUser] alone. *)
Theorem checkAuth_failure_logs_then_redirects (env : Env) (w : World)
    (err : Value) :
  check_failure env err ->
  exists w',
    checkAuth env w = (Normal VNull, w') /\
    effects w' =
      (effects w ++
       [Request "GET" "/api/me";
        ConsoleError [VString "Error during auth check:"; err];
        Navigate "/login"])%list /\
    location_href w' = "/login" /\
    currentUser w' = currentUser w.
Proof.
  intros Hf.
  assert (Ht : checkAuth_try env w
               = (Throw err, emit (Request "GET" "/api/me") w))
    by (by apply checkAuth_try_throws).
  unfold checkAuth, try_catch. rewrite Ht.
  eexists. split; [reflexivity|]. simpl.
  rewrite <- !app_assoc. auto.
Qed.

Lemma checkAuth_failure_logs_then_redirects_witness :
  exists w',
    checkAuth (respond 500 (Fulfilled VNull)) stale_world = (Normal VNull, w') /\
    effects w' =
      (effects stale_world ++
       [Request "GET" "/api/me";
        ConsoleError [VString "Error during auth check:";
                      VError "Auth check failed"];
        Navigate "/login"])%list /\
    location_href w' = "/login" /\
    currentUser w' = currentUser stale_world.
Proof.
  apply (checkAuth_failure_logs_then_redirects
           (respond 500 (Fulfilled VNull)) stale_world).
  apply (bad_status _ {| status := 500; json := Fulfilled VNull |});
    [reflexivity | reflexivity | simpl; lia].
Defined.

(** The other two failure modes, run. *)
Example checkAuth_offline :
  effects (snd (checkAuth offline fresh_world)) =
    [Request "GET" "/api/me";
     ConsoleError [VString "Error during auth check:"; VError "Failed to fetch"];
     Navigate "/login"].
Proof. reflexivity. Qed.

Example checkAuth_bad_json :
  effects (snd (checkAuth (respond 200 (Rejected (VError "Unexpected token")))
                  fresh_world)) =
    [Request "GET" "/api/me";
     ConsoleError [VString "Error during auth check:"; VError "Unexpected token"];
     Navigate "/login"].
Proof. reflexivity. Qed.

(** C8 fails: a body without a [user] member leaves a stale value in
    place. *)
Lemma not_overwritten_on_every_check : ~ overwritten_on_every_check.
Proof.
  intros H.
  pose proof
    (H (respond 200 (Fulfilled anonymous_body))
       stale_world
       (emit (Request "GET" "/api/me") stale_world) VNull eq_refl) as Hc.
  discriminate Hc.
Qed.

(** C8, amended: [checkAuth] never throws; when it returns a truthy value,
    [window.currentUser] is that value whatever it held before; when it
    returns a value that is not truthy, or never returns,
    [window.currentUser] holds what it held before. *)
Theorem checkAuth_currentUser (env : Env) (w : World) :
  match checkAuth env w with
  | (Normal u, w') => currentUser w' = if truthy u then u else currentUser w
  | (Throw _, _) => False
  | (Hang, w') => currentUser w' = currentUser w
  end.
Proof.
  run. destruct (network env _ _) as [res|e0|]; simpl; [|done|done].
  destruct (ok res); simpl.
  - destruct (json res) as [data|e0|]; simpl; [|done|done].
    destruct data; simpl; try done.
    + by destruct b.
    + destruct (negb _) eqn:E; simpl; rewrite ?E; done.
    + destruct (negb _) eqn:E; simpl; rewrite ?E; done.
    + destruct (props !! "user") as [u|]; simpl; [|done].
      destruct (truthy u) eqn:Hu; simpl.
      * by rewrite (truthy_coalesce _ Hu), Hu.
      * destruct u; simpl in *; try done; by rewrite Hu.
  - destruct (status res =? 401); done.
Qed.

(** Every run of [checkAuth] starts by sending the request. *)
Lemma checkAuth_effects_prefix (env : Env) (w : World) :
  exists rest,
    effects (snd (checkAuth env w)) =
      (effects w ++ Request "GET" "/api/me" :: rest)%list.
Proof.
  destruct (checkAuth_try env w) as [c w1] eqn:Ht.
  unfold checkAuth, try_catch. rewrite Ht.
  assert (Hpre : exists rest,
            effects w1 = (effects w ++ Request "GET" "/api/me" :: rest)%list).
  { revert Ht. run.
    destruct (network env _ _) as [res|e0|]; simpl;
      [|intros [= <- <-]; by exists []|intros [= <- <-]; by exists []].
    destruct (ok res); simpl.
    - destruct (json res) as [data|e0|]; simpl;
        [|intros [= <- <-]; by exists []|intros [= <- <-]; by exists []].
      destruct (if truthy data then _ else _) as [c1 w2] eqn:Hg.
      assert (w2 = emit (Request "GET" "/api/me") w) as ->.
      { destruct data; simpl in Hg; try (by injection Hg);
          destruct (_ : bool); by injection Hg. }
      destruct c1 as [g| |]; [|intros [= <- <-]; by exists []
                              |intros [= <- <-]; by exists []].
      destruct (truthy g); simpl.
      + destruct data; simpl; intros [= <- <-]; simpl;
          try (by exists []); rewrite <- app_assoc; by eexists.
      + destruct data; simpl; intros [= <- <-]; by exists [].
    - destruct (status res =? 401); simpl; intros [= <- <-]; simpl.
      + rewrite <- app_assoc. by eexists.
      + by exists []. }
  destruct Hpre as [rest Hrest].
  destruct c as [v|e|]; simpl; rewrite ?Hrest.
  - by eexists.
  - rewrite <- !app_assoc. simpl. by eexists.
  - by eexists.
Qed.

(** ** Logout *)

Lemma remove_all_lookup ks (m : gmap string string) k :
  remove_all ks m !! k = if decide (k ∈ ks) then None else m !! k.
Proof.
  unfold remove_all. revert m. induction ks as [|k0 ks IH]; intros m.
  - destruct (decide (k ∈ [])) as [Hin|_]; [by apply elem_of_nil in Hin|done].
  - change (foldl (fun m k => delete k m) (delete k0 m) ks !! k
            = if decide (k ∈ k0 :: ks) then None else m !! k).
    rewrite IH.
    destruct (decide (k ∈ ks)) as [Hin|Hnin];
      destruct (decide (k ∈ k0 :: ks)) as [Hin'|Hnin']; try done.
    + exfalso. apply Hnin'. by right.
    + apply elem_of_cons in Hin' as [->|?]; [apply lookup_delete_eq|done].
    + apply lookup_delete_ne. intros ->. apply Hnin'. by left.
Qed.

Lemma until_fault_elem env ks k : k ∈ until_fault env ks -> k ∈ ks.
Proof.
  induction ks as [|k0 ks IH]; simpl; [done|].
  destruct (storage_fault env k0); [set_solver|].
  rewrite !elem_of_cons. intros [->|H]; auto.
Qed.

Lemma until_fault_all env ks :
  (forall k, k ∈ ks -> storage_fault env k = None) -> until_fault env ks = ks.
Proof.
  induction ks as [|k0 ks IH]; simpl; [done|]. intros H.
  rewrite (H k0) by set_solver. f_equal. apply IH. intros k Hk. apply H.
  set_solver.
Qed.

Lemma without_keys_localStorage ks w :
  localStorage (foldl without_key w ks) = remove_all ks (localStorage w).
Proof.
  unfold remove_all. revert w. induction ks as [|k ks IH]; intros w; [done|].
  simpl. by rewrite IH.
Qed.

Lemma without_keys_effects ks w :
  effects (foldl without_key w ks) = (effects w ++ (RemoveItem <$> ks))%list.
Proof.
  revert w. induction ks as [|k ks IH]; intros w; simpl.
  - by rewrite app_nil_r.
  - rewrite IH. simpl. by rewrite <- app_assoc.
Qed.

(** A run of [doLogout] whose request settles: the request, the removals
    up to the first one that throws, the navigation. *)
Lemma doLogout_settled (env : Env) (w : World) :
  network env "/api/logout" "POST" <> Pending ->
  doLogout env w =
    (Normal tt,
     snd (set_location_href "/login"
            (foldl without_key (emit (Request "POST" "/api/logout") w)
               (until_fault env logout_keys)))).
Proof.
  intros Hset. run. unfold removeItem.
  destruct (network env _ _) as [res|e0|]; simpl; [| |done];
    destruct (storage_fault env "jobly_user"); simpl; try reflexivity;
    destruct (storage_fault env "authEmail"); simpl; try reflexivity;
    destruct (storage_fault env "employerRegistration"); simpl; try reflexivity;
    destruct (storage_fault env "ultimaVacanteId"); reflexivity.
Qed.

(** C4: every invocation of [doLogout] whose [POST /api/logout] settles,
    fulfilled with any status or rejected, returns after navigating to
    [/login] as its last effect, whether or not a removal from
    [localStorage] throws. *)
Theorem doLogout_always_redirects (env : Env) (w : World) :
  network env "/api/logout" "POST" <> Pending ->
  exists w',
    handleLogout env w = (Normal tt, w') /\
    location_href w' = "/login" /\
    last (effects w') = Some (Navigate "/login").
Proof.
  intros Hset. unfold handleLogout. rewrite (doLogout_settled _ _ Hset).
  eexists. split; [reflexivity|]. split; [reflexivity|].
  apply last_snoc.
Qed.

Lemma doLogout_always_redirects_witness :
  exists w',
    handleLogout storage_blocked fresh_world = (Normal tt, w') /\
    location_href w' = "/login" /\
    last (effects w') = Some (Navigate "/login").
Proof.
  apply (doLogout_always_redirects storage_blocked fresh_world).
  simpl. discriminate.
Defined.

(** A logout request that never settles keeps [doLogout] suspended:
    nothing is removed and no navigation starts. *)
Lemma doLogout_pending (env : Env) (w : World) :
  network env "/api/logout" "POST" = Pending ->
  doLogout env w = (Hang, emit (Request "POST" "/api/logout") w).
Proof. intros H. run. by rewrite H. Qed.

(** C5 fails: where [localStorage] throws, the [catch] swallows the
    exception and the keys stay. *)
Lemma logout_keeps_keys_when_storage_throws : ~ logout_clears_exactly_four.
Proof.
  intros H. specialize (H storage_blocked fresh_world "jobly_user").
  vm_compute in H. discriminate H.
Qed.

(** C5, amended: in every invocation of [doLogout] whose request settles,
    the keys removed from [localStorage] are the four keys in the order of
    the source, up to the first removal that throws; so no other key is
    touched, and when no removal throws the four keys are all gone. *)
Theorem doLogout_clears_hints (env : Env) (w : World) :
  network env "/api/logout" "POST" <> Pending ->
  localStorage (snd (doLogout env w)) =
    remove_all (until_fault env logout_keys) (localStorage w) /\
  effects (snd (doLogout env w)) =
    (effects w ++ [Request "POST" "/api/logout"]
       ++ (RemoveItem <$> until_fault env logout_keys)
       ++ [Navigate "/login"])%list /\
  (forall k, k ∉ logout_keys ->
     localStorage (snd (doLogout env w)) !! k = localStorage w !! k) /\
  ((forall k, k ∈ logout_keys -> storage_fault env k = None) ->
   forall k,
     localStorage (snd (doLogout env w)) !! k =
       if decide (k ∈ logout_keys) then None else localStorage w !! k).
Proof.
  intros Hset. rewrite (doLogout_settled _ _ Hset). cbn [snd].
  assert (Hls : localStorage
            (snd (set_location_href "/login"
               (foldl without_key (emit (Request "POST" "/api/logout") w)
                  (until_fault env logout_keys)))) =
          remove_all (until_fault env logout_keys) (localStorage w))
    by (simpl; by rewrite without_keys_localStorage).
  split; [exact Hls|]. split; [|split].
  - simpl. rewrite without_keys_effects. simpl. by rewrite <- !app_assoc.
  - intros k Hk. rewrite Hls, remove_all_lookup.
    destruct (decide _) as [Hin|]; [|done].
    exfalso. apply Hk. by eapply until_fault_elem.
  - intros Hok k. rewrite Hls, remove_all_lookup.
    by rewrite (until_fault_all _ _ Hok).
Qed.

Lemma doLogout_clears_hints_witness :
  localStorage (snd (doLogout online fresh_world)) =
    remove_all (until_fault online logout_keys) (localStorage fresh_world) /\
  effects (snd (doLogout online fresh_world)) =
    (effects fresh_world ++ [Request "POST" "/api/logout"]
       ++ (RemoveItem <$> until_fault online logout_keys)
       ++ [Navigate "/login"])%list /\
  (forall k, k ∉ logout_keys ->
     localStorage (snd (doLogout online fresh_world)) !! k
     = localStorage fresh_world !! k) /\
  ((forall k, k ∈ logout_keys -> storage_fault online k = None) ->
   forall k,
     localStorage (snd (doLogout online fresh_world)) !! k =
       if decide (k ∈ logout_keys) then None
       else localStorage fresh_world !! k).
Proof.
  apply (doLogout_clears_hints online fresh_world). simpl. discriminate.
Defined.

(** The same run, evaluated: the two cached hints are gone, the unrelated
    key stays. *)
Example doLogout_online_run :
  map_to_list (localStorage (snd (doLogout online fresh_world)))
    = [("theme", "dark")] /\
  effects (snd (doLogout online fresh_world)) =
    [Request "POST" "/api/logout"; RemoveItem "jobly_user";
     RemoveItem "authEmail"; RemoveItem "employerRegistration";
     RemoveItem "ultimaVacanteId"; Navigate "/login"].
Proof. split; vm_compute; reflexivity. Qed.

(** ** The opt-out flag *)

(** C6: when [window.SKIP_AUTH_GUARD] is truthy as the [DOMContentLoaded]
    listener runs, the listener does not call [checkAuth]: it returns with
    no effect at all, so no request is sent, and [window.currentUser] and
    the location are as before. *)
Theorem skip_flag_sends_nothing (env : Env) (w : World) :
  truthy (SKIP_AUTH_GUARD w) = true ->
  exists w',
    onDOMContentLoaded env w = (Normal tt, w') /\
    effects w' = effects w /\
    currentUser w' = currentUser w /\
    location_href w' = location_href w /\
    localStorage w' = localStorage w.
Proof.
  intros Hskip. run. unfold addClickListener, modify.
  destruct (logoutBtn w); simpl; rewrite Hskip; simpl; eauto 10.
Qed.

Lemma skip_flag_sends_nothing_witness :
  exists w',
    onDOMContentLoaded offline public_page = (Normal tt, w') /\
    effects w' = effects public_page /\
    currentUser w' = currentUser public_page /\
    location_href w' = location_href public_page /\
    localStorage w' = localStorage public_page.
Proof.
  apply (skip_flag_sends_nothing offline public_page). reflexivity.
Defined.

(** Without the flag the listener runs the guard, whose first effect is
    the request. *)
Lemma guard_runs_without_flag (env : Env) (w : World) :
  truthy (SKIP_AUTH_GUARD w) = false ->
  exists rest,
    effects (snd (onDOMContentLoaded env w)) =
      (effects w ++ Request "GET" "/api/me" :: rest)%list.
Proof.
  intros Hskip.
  pose proof (checkAuth_effects_prefix env) as Hpre.
  unfold onDOMContentLoaded, bind, gets, detached, addClickListener, modify, ret.
  destruct (logoutBtn w); simpl; rewrite Hskip; simpl;
    match goal with
    | |- exists rest, effects (snd (checkAuth env ?w0)) = _ =>
        destruct (Hpre w0) as [rest Hr]; exists rest; exact Hr
    end.
Qed.

End AuthGuard.

(** * Properties of the bookmark control *)

Section Bookmark.

(** What one click does to a button that has its icon. *)
Lemma click_bookmark_icon (p : Page) (attrs : gmap string string) :
  icon p = Some attrs ->
  click_bookmark p =
    {| icon :=
         Some (if not_none (attrs !! "fill")
               then <["stroke" := "#141514"]> (<["fill" := "none"]> attrs)
               else <["stroke" := "none"]> (<["fill" := "#141514"]> attrs));
       console := console p;
       propagation_stopped := true |}.
Proof.
  intros Hicon.
  unfold click_bookmark, dispatch, new_event, bookmark_onclick, stopPropagation,
    getAttribute, setAttribute, bind, modify. simpl.
  rewrite Hicon. simpl. by destruct (not_none (attrs !! "fill")).
Qed.

(** A button without an icon: the listener throws after it has stopped
    the propagation. *)
Lemma click_bookmark_no_icon (p : Page) :
  icon p = None ->
  click_bookmark p =
    {| icon := None; console := console p; propagation_stopped := true |}.
Proof.
  intros Hicon.
  unfold click_bookmark, dispatch, new_event, bookmark_onclick, stopPropagation,
    getAttribute, bind, modify. simpl.
  by rewrite Hicon.
Qed.

(** The listener of the card, when it runs, writes its line. *)
Lemma click_jobCard_logs (p : Page) :
  console (click_jobCard p) = (console p ++ ["Job card clicked"])%list.
Proof. reflexivity. Qed.

Lemma fill_after_click (p : Page) (attrs : gmap string string) :
  icon p = Some attrs ->
  fill_stroke (click_bookmark p) =
    Some (if not_none (attrs !! "fill") then outlined else filled).
Proof.
  intros Hicon. rewrite (click_bookmark_icon _ _ Hicon).
  unfold fill_stroke. simpl.
  destruct (not_none (attrs !! "fill")); simpl; unfold outlined, filled;
    by rewrite lookup_insert_eq, lookup_insert_ne, lookup_insert_eq.
Qed.

Lemma click_outlined (q : Page) :
  fill_stroke q = Some outlined -> fill_stroke (click_bookmark q) = Some filled.
Proof.
  unfold fill_stroke at 1. destruct (icon q) as [attrs|] eqn:Hicon; [|done].
  simpl. intros [= Hf _]. by rewrite (fill_after_click _ _ Hicon), Hf.
Qed.

Lemma click_filled (q : Page) :
  fill_stroke q = Some filled -> fill_stroke (click_bookmark q) = Some outlined.
Proof.
  unfold fill_stroke at 1. destruct (icon q) as [attrs|] eqn:Hicon; [|done].
  simpl. intros [= Hf _]. by rewrite (fill_after_click _ _ Hicon), Hf.
Qed.

(** C9: a click on a bookmark button that has its icon sets the [fill]
    attribute of the icon to ['none'] when it was anything else (or
    absent) and to ['#141514'] when it was ['none'], so the flag the
    listener reads is negated by one click and restored by two; the click
    stops at the button: propagation is stopped and the listener of the
    enclosing card, which would write to the console, does not run. *)
Theorem bookmark_click_toggles (p : Page) (attrs : gmap string string) :
  icon p = Some attrs ->
  (fst <$> fill_stroke (click_bookmark p)) =
    Some (Some (if not_none (attrs !! "fill") then "none" else "#141514")) /\
  isFilled (click_bookmark p) = (negb <$> isFilled p) /\
  isFilled (click_bookmark (click_bookmark p)) = isFilled p /\
  propagation_stopped (click_bookmark p) = true /\
  console (click_bookmark p) = console p.
Proof.
  intros Hicon.
  assert (Hneg : forall q a, icon q = Some a ->
            isFilled (click_bookmark q) = (negb <$> isFilled q)).
  { intros q a Hq. rewrite (click_bookmark_icon _ _ Hq).
    unfold isFilled. rewrite Hq. simpl.
    destruct (not_none (a !! "fill")); simpl;
      by rewrite lookup_insert_ne, lookup_insert_eq. }
  split; [|split; [|split; [|split]]].
  - rewrite (fill_after_click _ _ Hicon).
    by destruct (not_none (attrs !! "fill")).
  - by eapply Hneg.
  - rewrite (click_bookmark_icon _ _ Hicon).
    erewrite Hneg by reflexivity.
    unfold isFilled. rewrite Hicon. simpl.
    destruct (not_none (attrs !! "fill")); simpl;
      by rewrite lookup_insert_ne, lookup_insert_eq.
  - by rewrite (click_bookmark_icon _ _ Hicon).
  - by rewrite (click_bookmark_icon _ _ Hicon).
Qed.

Lemma bookmark_click_toggles_witness :
  (fst <$> fill_stroke (click_bookmark (sample_page (Some "none")))) =
    Some (Some "#141514") /\
  isFilled (click_bookmark (sample_page (Some "none"))) = Some true /\
  isFilled (click_bookmark (click_bookmark (sample_page (Some "none"))))
    = Some false /\
  propagation_stopped (click_bookmark (sample_page (Some "none"))) = true /\
  console (click_bookmark (sample_page (Some "none"))) = ["Buscar clicked"].
Proof.
  exact (bookmark_click_toggles (sample_page (Some "none")) _ eq_refl).
Defined.

(** C10: whatever the attributes of the icon were, after the first click
    and after every later one the pair (fill, stroke) is either
    (['none'], ['#141514']) or (['#141514'], ['none']), and the next click
    takes it to the other of the two. *)
Theorem bookmark_two_states (p : Page) (attrs : gmap string string) (n : nat) :
  icon p = Some attrs ->
  (fill_stroke (clicks (S n) p) = Some outlined /\
   fill_stroke (clicks (S (S n)) p) = Some filled) \/
  (fill_stroke (clicks (S n) p) = Some filled /\
   fill_stroke (clicks (S (S n)) p) = Some outlined).
Proof.
  intros Hicon.
  assert (H1 : fill_stroke (clicks (S n) p) = Some outlined \/
               fill_stroke (clicks (S n) p) = Some filled).
  { induction n as [|n IH].
    - simpl. rewrite (fill_after_click _ _ Hicon).
      destruct (not_none (attrs !! "fill")); auto.
    - change (clicks (S (S n)) p) with (click_bookmark (clicks (S n) p)).
      destruct IH as [IH|IH]; [right; by apply click_outlined
                              |left; by apply click_filled]. }
  change (clicks (S (S n)) p) with (click_bookmark (clicks (S n) p)).
  destruct H1 as [H1|H1]; [left|right]; split; try done.
  - by apply click_outlined.
  - by apply click_filled.
Qed.

Lemma bookmark_two_states_witness :
  (fill_stroke (clicks 1 (sample_page (Some "red"))) = Some outlined /\
   fill_stroke (clicks 2 (sample_page (Some "red"))) = Some filled) \/
  (fill_stroke (clicks 1 (sample_page (Some "red"))) = Some filled /\
   fill_stroke (clicks 2 (sample_page (Some "red"))) = Some outlined).
Proof.
  exact (bookmark_two_states (sample_page (Some "red")) _ 0 eq_refl).
Defined.

(** The two states differ, and a path whose fill was a colour of its own
    does not get that colour back. *)
Example bookmark_red_run :
  outlined <> filled /\
  fill_stroke (sample_page (Some "red")) = Some (Some "red", None) /\
  fill_stroke (clicks 1 (sample_page (Some "red"))) = Some outlined /\
  fill_stroke (clicks 2 (sample_page (Some "red"))) = Some filled /\
  fill_stroke (clicks 3 (sample_page (Some "red"))) = Some outlined.
Proof. repeat split; try (vm_compute; reflexivity). discriminate. Qed.

End Bookmark.

(** * Further properties of the auth guard *)

Section AuthRuns.

Ltac run_auth :=
  unfold checkAuth, checkAuth_try, checkAuth_catch, doLogout,
    onDOMContentLoaded, fetch, set_location_href, set_currentUser,
    console_error, get_prop_opt, get_prop, detached, try_catch, bind, await,
    ret, throw, modify, gets; simpl.

Lemma falsy_coalesce v : truthy v = true -> nullish v = false.
Proof. by destruct v. Qed.

(** An ok answer with a parsed body, whatever the body. *)
Lemma checkAuth_ok_run (env : Env) (w : World) (res : Response) (data : Value) :
  network env "/api/me" "GET" = Fulfilled res ->
  ok res = true ->
  json res = Fulfilled data ->
  checkAuth env w =
    (Normal (coalesce (user_value data) VNull),
     if truthy (user_value data)
     then snd (set_currentUser (user_value data) (requested w))
     else requested w).
Proof.
  intros Hnet Hok Hjson. run_auth. rewrite Hnet, Hok, Hjson. simpl.
  unfold user_value, requested.
  destruct data; simpl; try reflexivity.
  - by destruct b.
  - destruct (negb _) eqn:E; simpl; by rewrite ?E.
  - destruct (negb _) eqn:E; simpl; by rewrite ?E.
  - destruct (props !! "user") as [u|]; simpl; [|done].
    destruct (truthy u) eqn:Hu; simpl; [done|].
    destruct u; simpl in *; try done; by rewrite Hu.
Qed.

(** Every run of [checkAuth] ends in one of the five ways. *)
Lemma checkAuth_outcome (env : Env) (w : World) :
  guard_outcome w (checkAuth env w).
Proof.
  destruct (network env "/api/me" "GET") as [res|e|] eqn:Hnet.
  - destruct (ok res) eqn:Hok.
    + destruct (json res) as [data|e|] eqn:Hjson.
      * rewrite (checkAuth_ok_run _ _ _ _ Hnet Hok Hjson).
        destruct (truthy (user_value data)) eqn:Hu.
        -- replace (coalesce (user_value data) VNull) with (user_value data)
             by (unfold coalesce; by rewrite (falsy_coalesce _ Hu)).
           by apply guard_signed_in.
        -- by apply guard_anonymous.
      * replace (checkAuth env w)
          with (Normal VNull, snd (checkAuth_catch e (requested w)));
          [apply guard_failed|].
        run_auth. by rewrite Hnet, Hok, Hjson.
      * replace (checkAuth env w) with (@Hang Value, requested w);
          [apply guard_waits|].
        run_auth. by rewrite Hnet, Hok, Hjson.
    + destruct (status res =? 401) eqn:Hst.
      * replace (checkAuth env w)
          with (Normal VNull, snd (set_location_href "/login" (requested w)));
          [apply guard_unauthenticated|].
        run_auth. by rewrite Hnet, Hok, Hst.
      * replace (checkAuth env w)
          with (Normal VNull,
                snd (checkAuth_catch (VError "Auth check failed") (requested w)));
          [apply guard_failed|].
        run_auth. by rewrite Hnet, Hok, Hst.
  - replace (checkAuth env w)
      with (Normal VNull, snd (checkAuth_catch e (requested w)));
      [apply guard_failed|].
    run_auth. by rewrite Hnet.
  - replace (checkAuth env w) with (@Hang Value, requested w);
      [apply guard_waits|].
    run_auth. by rewrite Hnet.
Qed.

(** X1: whatever the backend does, a run of [checkAuth] sends exactly one
    request, [GET /api/me], as its first effect, and leaves
    [localStorage], the opt-out flag and the listeners of the logout button
    as they were. *)
Theorem checkAuth_one_request (env : Env) (w : World) :
  localStorage (snd (checkAuth env w)) = localStorage w /\
  SKIP_AUTH_GUARD (snd (checkAuth env w)) = SKIP_AUTH_GUARD w /\
  logoutBtn (snd (checkAuth env w)) = logoutBtn w /\
  exists rest,
    effects (snd (checkAuth env w)) =
      (effects w ++ Request "GET" "/api/me" :: rest)%list /\
    forallb local_effect rest = true.
Proof.
  destruct (checkAuth_outcome env w) as [| |e|v Hv|u Hu]; simpl;
    repeat (split; [reflexivity|]).
  - exists []. by split.
  - exists [Navigate "/login"]. split; [by rewrite <- app_assoc|done].
  - exists [ConsoleError [VString "Error during auth check:"; e];
            Navigate "/login"].
    split; [by rewrite <- !app_assoc|done].
  - exists []. by split.
  - exists [AssignCurrentUser u]. split; [by rewrite <- app_assoc|done].
Qed.

(** X2: an ok answer whose body parses never redirects and never logs,
    whatever the body says (also [authenticated: false]): [checkAuth]
    returns [data?.user ?? null], the location is as before, and the only
    effect after the request is the assignment of a truthy user. *)
Theorem checkAuth_ok_stays (env : Env) (w : World) (res : Response)
    (data : Value) :
  network env "/api/me" "GET" = Fulfilled res ->
  ok res = true ->
  json res = Fulfilled data ->
  fst (checkAuth env w) = Normal (coalesce (user_value data) VNull) /\
  location_href (snd (checkAuth env w)) = location_href w /\
  effects (snd (checkAuth env w)) =
    (effects w ++
     Request "GET" "/api/me" ::
     if truthy (user_value data)
     then [AssignCurrentUser (user_value data)] else [])%list.
Proof.
  intros Hnet Hok Hjson. rewrite (checkAuth_ok_run _ _ _ _ Hnet Hok Hjson).
  destruct (truthy (user_value data)); simpl; repeat split.
  by rewrite <- app_assoc.
Qed.

Lemma checkAuth_ok_stays_witness :
  fst (checkAuth (respond 200 (Fulfilled anonymous_body)) fresh_world)
    = Normal (coalesce (user_value anonymous_body) VNull) /\
  location_href (snd (checkAuth (respond 200 (Fulfilled anonymous_body))
                        fresh_world))
    = location_href fresh_world /\
  effects (snd (checkAuth (respond 200 (Fulfilled anonymous_body))
                  fresh_world)) =
    (effects fresh_world ++
     Request "GET" "/api/me" ::
     if truthy (user_value anonymous_body)
     then [AssignCurrentUser (user_value anonymous_body)] else [])%list.
Proof.
  apply (checkAuth_ok_stays _ fresh_world
           {| status := 200; json := Fulfilled anonymous_body |}
           anonymous_body); reflexivity.
Defined.

(** X3: a [user] member that is not truthy but not [null] either ([0],
    [false], the empty string) is returned by [checkAuth] and yet not
    stored: [window.currentUser] keeps its value and is never assigned. *)
Theorem checkAuth_falsy_user (env : Env) (w : World) (res : Response)
    (props : gmap string Value) (u : Value) :
  network env "/api/me" "GET" = Fulfilled res ->
  ok res = true ->
  json res = Fulfilled (VObject props) ->
  props !! "user" = Some u ->
  truthy u = false ->
  nullish u = false ->
  checkAuth env w = (Normal u, requested w) /\
  currentUser (snd (checkAuth env w)) = currentUser w.
Proof.
  intros Hnet Hok Hjson Hu Hf Hn.
  rewrite (checkAuth_ok_run _ _ _ _ Hnet Hok Hjson).
  unfold user_value. simpl. rewrite Hu. simpl. rewrite Hf.
  unfold coalesce. by rewrite Hn.
Qed.

Lemma checkAuth_falsy_user_witness :
  checkAuth (respond 200 (Fulfilled (VObject {[ "user" := VBool false ]})))
    stale_world
  = (Normal (VBool false), requested stale_world) /\
  currentUser
    (snd (checkAuth
            (respond 200 (Fulfilled (VObject {[ "user" := VBool false ]})))
            stale_world))
  = currentUser stale_world.
Proof.
  apply (checkAuth_falsy_user _ stale_world
           {| status := 200;
              json := Fulfilled (VObject {[ "user" := VBool false ]}) |}
           {[ "user" := VBool false ]} (VBool false)); reflexivity.
Defined.

(** X4: [checkAuth] has no timeout of its own.  It stays suspended exactly
    when the request, or the body of an ok answer, never settles; then the
    request is all that has happened: no redirect, no log, no user. *)
Theorem checkAuth_waits_forever (env : Env) (w : World) :
  (fst (checkAuth env w) = Hang <->
   network env "/api/me" "GET" = Pending \/
   exists res,
     network env "/api/me" "GET" = Fulfilled res /\
     ok res = true /\ json res = Pending) /\
  (fst (checkAuth env w) = Hang -> snd (checkAuth env w) = requested w).
Proof.
  split.
  - split.
    + run_auth. destruct (network env _ _) as [res|e|] eqn:Hnet; simpl;
        [|done|by left].
      destruct (ok res) eqn:Hok; simpl.
      * destruct (json res) as [data|e|] eqn:Hjson; simpl;
          [|done|right; by exists res].
        destruct data; simpl; try done.
        -- by destruct b.
        -- destruct (negb _) eqn:E; simpl; by rewrite ?E.
        -- destruct (negb _) eqn:E; simpl; by rewrite ?E.
        -- by destruct (truthy (default VUndefined (props !! "user"))).
      * by destruct (status res =? 401).
    + intros [Hnet|(res & Hnet & Hok & Hjson)]; run_auth; rewrite Hnet; simpl;
        [done|]. by rewrite Hok, Hjson.
  - intros Hh. destruct (checkAuth_outcome env w); simpl in *; done.
Qed.

End AuthRuns.

(** * Further properties of the logout helper and of the wiring *)

Section LogoutRuns.

Lemma until_fault_agree (env1 env2 : Env) (ks : list string) :
  (forall k, k ∈ ks ->
     (storage_fault env1 k = None <-> storage_fault env2 k = None)) ->
  until_fault env1 ks = until_fault env2 ks.
Proof.
  induction ks as [|k ks IH]; intros Hag; simpl; [done|].
  assert (Hk : storage_fault env1 k = None <-> storage_fault env2 k = None)
    by (apply Hag; by left).
  assert (Hks : until_fault env1 ks = until_fault env2 ks)
    by (apply IH; intros k' Hk'; apply Hag; by right).
  destruct (storage_fault env1 k) as [e1|], (storage_fault env2 k) as [e2|];
    try done.
  - by destruct Hk as [_ Hk]; specialize (Hk eq_refl).
  - by destruct Hk as [Hk _]; specialize (Hk eq_refl).
  - by rewrite Hks.
Qed.

Lemma logout_request_cases (env : Env) :
  network env "/api/logout" "POST" = Pending \/
  network env "/api/logout" "POST" <> Pending.
Proof. destruct (network env _ _); [by right|by right|by left]. Qed.


Lemma without_keys_frame (ks : list string) (w : World) :
  currentUser (foldl without_key w ks) = currentUser w /\
  SKIP_AUTH_GUARD (foldl without_key w ks) = SKIP_AUTH_GUARD w /\
  logoutBtn (foldl without_key w ks) = logoutBtn w.
Proof.
  revert w. induction ks as [|k ks IH]; intros w; simpl; [done|].
  destruct (IH (without_key w k)) as (-> & -> & ->). done.
Qed.

(** The fields of the world after a logout whose request settled. *)
Lemma doLogout_settled_fields (env : Env) (w : World) :
  network env "/api/logout" "POST" <> Pending ->
  fst (doLogout env w) = Normal tt /\
  localStorage (snd (doLogout env w)) =
    remove_all (until_fault env logout_keys) (localStorage w) /\
  currentUser (snd (doLogout env w)) = currentUser w /\
  SKIP_AUTH_GUARD (snd (doLogout env w)) = SKIP_AUTH_GUARD w /\
  logoutBtn (snd (doLogout env w)) = logoutBtn w /\
  location_href (snd (doLogout env w)) = "/login" /\
  last (effects (snd (doLogout env w))) = Some (Navigate "/login").
Proof.
  intros Hs. rewrite (doLogout_settled _ _ Hs).
  generalize (until_fault env logout_keys). intros ks.
  destruct (without_keys_frame ks (emit (Request "POST" "/api/logout") w))
    as (Hu & Hg & Hb).
  pose proof (without_keys_localStorage ks
                (emit (Request "POST" "/api/logout") w)) as Hl.
  cbn [fst snd]. unfold set_location_href, modify. cbn [fst snd].
  unfold emit at 1 3 5 7 9 11. cbn [localStorage currentUser SKIP_AUTH_GUARD
    logoutBtn location_href effects].
  rewrite Hl, Hu, Hg, Hb. repeat split. apply last_snoc.
Qed.

(** X5: the answer to [POST /api/logout] is ignored.  Two runs of
    [doLogout] from the same state whose requests settle, in any way, and
    whose [localStorage] fails at the same removals, end in the same
    state. *)
Theorem doLogout_ignores_answer (env1 env2 : Env) (w : World) :
  network env1 "/api/logout" "POST" <> Pending ->
  network env2 "/api/logout" "POST" <> Pending ->
  (forall k, k ∈ logout_keys ->
     (storage_fault env1 k = None <-> storage_fault env2 k = None)) ->
  doLogout env1 w = doLogout env2 w.
Proof.
  intros H1 H2 Hag.
  rewrite (doLogout_settled _ _ H1), (doLogout_settled _ _ H2).
  by rewrite (until_fault_agree _ _ _ Hag).
Qed.

Lemma doLogout_ignores_answer_witness :
  doLogout offline fresh_world = doLogout (respond 500 Pending) fresh_world.
Proof.
  apply (doLogout_ignores_answer offline (respond 500 Pending) fresh_world);
    [simpl; discriminate | simpl; discriminate | reflexivity].
Defined.


(** X7: [doLogout] never throws, and it clears nothing of [window]:
    [window.currentUser] still holds the user after the logout, until the
    navigation replaces the page. *)
Theorem doLogout_keeps_currentUser (env : Env) (w : World) :
  (forall e, fst (doLogout env w) <> Throw e) /\
  currentUser (snd (doLogout env w)) = currentUser w /\
  SKIP_AUTH_GUARD (snd (doLogout env w)) = SKIP_AUTH_GUARD w /\
  logoutBtn (snd (doLogout env w)) = logoutBtn w.
Proof.
  destruct (logout_request_cases env) as [Hp|Hs].
  - by rewrite (doLogout_pending _ _ Hp).
  - destruct (doLogout_settled_fields env w Hs)
      as (Hn & _ & -> & -> & -> & _).
    rewrite Hn. done.
Qed.

Lemma checkAuth_keeps_button (env : Env) (w : World) :
  logoutBtn (snd (checkAuth env w)) = logoutBtn w.
Proof. by destruct (checkAuth_outcome env w). Qed.

Lemma ready_logoutBtn (env : Env) (w : World) :
  logoutBtn (snd (onDOMContentLoaded env w)) =
    ((fun ls => (ls ++ [LogoutClick])%list) <$> logoutBtn w).
Proof.
  unfold onDOMContentLoaded, bind, gets, detached, addClickListener, modify, ret.
  destruct (logoutBtn w) as [ls|] eqn:Hbtn; simpl;
    destruct (truthy (SKIP_AUTH_GUARD w)); simpl;
    rewrite ?checkAuth_keeps_button; simpl; by rewrite ?Hbtn.
Qed.

(** X8: the [DOMContentLoaded] listener always returns, also while the
    guard is still waiting for the backend, and it adds exactly one click
    listener to [#logoutBtn] when the page has that button, with or
    without the opt-out flag; on a page without the button it adds
    nothing and does not fail. *)
Theorem ready_wires_logout (env : Env) (w : World) :
  fst (onDOMContentLoaded env w) = Normal tt /\
  logoutBtn (snd (onDOMContentLoaded env w)) =
    ((fun ls => (ls ++ [LogoutClick])%list) <$> logoutBtn w).
Proof.
  split; [|apply ready_logoutBtn].
  unfold onDOMContentLoaded, bind, gets, detached, addClickListener, modify, ret.
  destruct (logoutBtn w); simpl; by destruct (truthy (SKIP_AUTH_GUARD w)).
Qed.



End LogoutRuns.

(** * Further properties of the landing page *)

Section LandingPage.

Lemma bookmark_onclick_stops (q : Page) :
  propagation_stopped (snd (bookmark_onclick q)) = true.
Proof.
  unfold bookmark_onclick, stopPropagation, getAttribute, setAttribute, bind,
    modify. simpl.
  destruct (icon q) as [attrs|]; simpl; [|done].
  by destruct (not_none (attrs !! "fill")).
Qed.

Lemma click_bookmark_shape (p : Page) :
  click_bookmark p =
    {| icon := icon (click_bookmark p);
       console := console p;
       propagation_stopped := true |}.
Proof.
  destruct (icon p) as [attrs|] eqn:Hicon.
  - by rewrite (click_bookmark_icon _ _ Hicon).
  - by rewrite (click_bookmark_no_icon _ Hicon).
Qed.

Lemma click_bookmark_icon_only (p q : Page) :
  icon p = icon q -> icon (click_bookmark p) = icon (click_bookmark q).
Proof.
  intros Heq. destruct (icon p) as [attrs|] eqn:Hp; symmetry in Heq.
  - by rewrite (click_bookmark_icon _ _ Hp), (click_bookmark_icon _ _ Heq).
  - by rewrite (click_bookmark_no_icon _ Hp), (click_bookmark_no_icon _ Heq).
Qed.

(** X10: a click on a bookmark button writes the [fill] and [stroke]
    attributes of the icon and no other: every other attribute of the path
    is as before. *)
Theorem bookmark_keeps_other_attributes (p : Page)
    (attrs : gmap string string) :
  icon p = Some attrs ->
  exists attrs',
    icon (click_bookmark p) = Some attrs' /\
    forall k, k <> "fill" -> k <> "stroke" -> attrs' !! k = attrs !! k.
Proof.
  intros Hicon. rewrite (click_bookmark_icon _ _ Hicon). simpl.
  eexists. split; [reflexivity|]. intros k Hf Hs.
  destruct (not_none (attrs !! "fill"));
    by rewrite !lookup_insert_ne.
Qed.

Lemma bookmark_keeps_other_attributes_witness :
  exists attrs',
    icon (click_bookmark (sample_page (Some "none"))) = Some attrs' /\
    forall k, k <> "fill" -> k <> "stroke" ->
      attrs' !! k
      = ({[ "fill" := "none" ]} ∪ {[ "d" := "M5 3h14v18l-7-5-7 5z" ]}
           : gmap string string) !! k.
Proof.
  exact (bookmark_keeps_other_attributes (sample_page (Some "none")) _ eq_refl).
Defined.

Lemma first_click_clicked (p : Page) (attrs : gmap string string) :
  icon p = Some attrs -> clicked_page (click_bookmark p).
Proof.
  intros Hicon. split.
  - by rewrite (click_bookmark_icon _ _ Hicon).
  - rewrite (fill_after_click _ _ Hicon).
    destruct (not_none (attrs !! "fill")); auto.
Qed.

Lemma next_click_clicked (q : Page) :
  clicked_page q -> clicked_page (click_bookmark q).
Proof.
  intros [_ Hlook]. split.
  - by rewrite click_bookmark_shape.
  - destruct Hlook as [H|H]; [right; by apply click_outlined
                             |left; by apply click_filled].
Qed.

Lemma two_clicks_back (q : Page) :
  clicked_page q -> click_bookmark (click_bookmark q) = q.
Proof.
  intros [Hstop Hlook]. destruct q as [[attrs|] c stopped]; simpl in *;
    [|by destruct Hlook]. subst stopped.
  assert (Hfs : attrs !! "fill" = Some "none" /\ attrs !! "stroke" = Some "#141514"
             \/ attrs !! "fill" = Some "#141514" /\ attrs !! "stroke" = Some "none").
  { unfold fill_stroke, outlined, filled in Hlook. simpl in Hlook.
    destruct Hlook as [[= -> ->]|[= -> ->]]; auto. }
  erewrite (click_bookmark_icon (click_bookmark _)); last first.
  { by rewrite (click_bookmark_icon _ attrs). }
  rewrite (click_bookmark_icon _ attrs) by done. simpl.
  f_equal. f_equal. apply map_eq. intros k.
  destruct Hfs as [[Hf Hs]|[Hf Hs]]; rewrite Hf; simpl;
    rewrite lookup_insert_ne, lookup_insert_eq by done; simpl;
    (destruct (decide (k = "stroke")) as [->|Hk1];
     [by rewrite lookup_insert_eq|rewrite lookup_insert_ne by done]);
    (destruct (decide (k = "fill")) as [->|Hk2];
     [by rewrite lookup_insert_eq|rewrite lookup_insert_ne by done]);
    by rewrite !lookup_insert_ne.
Qed.

(** X11: from the first click on, two more clicks on a bookmark button
    bring back the whole state of the page: every attribute of the icon,
    the console and the flag of the click.  The first click itself is not
    undone in general, since it normalises [fill] and [stroke]. *)
Theorem bookmark_period_two (p : Page) (attrs : gmap string string) (n : nat) :
  icon p = Some attrs ->
  clicks (S (S (S n))) p = clicks (S n) p.
Proof.
  intros Hicon.
  change (clicks (S (S (S n))) p)
    with (click_bookmark (click_bookmark (clicks (S n) p))).
  apply two_clicks_back.
  induction n as [|n IH].
  - by eapply first_click_clicked.
  - change (clicks (S (S n)) p) with (click_bookmark (clicks (S n) p)).
    by apply next_click_clicked.
Qed.

Lemma bookmark_period_two_witness :
  clicks 3 (sample_page (Some "red")) = clicks 1 (sample_page (Some "red")).
Proof.
  exact (bookmark_period_two (sample_page (Some "red")) _ 0 eq_refl).
Defined.

(** X12: on a bookmark button without an [svg path] the listener throws a
    [TypeError] at [svg.getAttribute], after it has stopped the
    propagation and before it has written anything. *)
Theorem bookmark_without_icon_throws (p : Page) :
  icon p = None ->
  bookmark_onclick p =
    (Throw (VError "Cannot read properties of null"),
     {| icon := None; console := console p; propagation_stopped := true |}).
Proof.
  intros Hicon.
  unfold bookmark_onclick, stopPropagation, getAttribute, bind, modify. simpl.
  by rewrite Hicon.
Qed.

Lemma bookmark_without_icon_throws_witness :
  bookmark_onclick {| icon := None; console := ["a"]; propagation_stopped := false |}
  = (Throw (VError "Cannot read properties of null"),
     {| icon := None; console := ["a"]; propagation_stopped := true |}).
Proof.
  exact (bookmark_without_icon_throws
           {| icon := None; console := ["a"]; propagation_stopped := false |}
           eq_refl).
Defined.

(** X13: a click on a bookmark button reaches no listener of any ancestor,
    whatever those listeners are and whether or not the button has its
    icon. *)
Theorem bookmark_stops_every_ancestor (up : list (M Page unit)) (p : Page) :
  dispatch (bookmark_onclick :: up) (new_event p) = click_bookmark p.
Proof.
  unfold click_bookmark. cbn [dispatch].
  by rewrite bookmark_onclick_stops.
Qed.

(** X14: the listener compares [fill] with the exact string ['none']: an
    icon whose [fill] is absent, or anything else, counts as filled, and
    the click outlines it. *)
Theorem bookmark_other_fill_is_filled (p : Page) (attrs : gmap string string) :
  icon p = Some attrs ->
  attrs !! "fill" <> Some "none" ->
  fill_stroke (click_bookmark p) = Some outlined.
Proof.
  intros Hicon Hfill. rewrite (fill_after_click _ _ Hicon).
  destruct (attrs !! "fill") as [s|] eqn:Hs; simpl; [|done].
  destruct (String.eqb s "none") eqn:E; simpl; [|done].
  apply String.eqb_eq in E. by subst.
Qed.

Lemma bookmark_other_fill_is_filled_witness :
  fill_stroke (click_bookmark (sample_page None)) = Some outlined.
Proof.
  apply (bookmark_other_fill_is_filled (sample_page None) _ eq_refl).
  vm_compute. discriminate.
Defined.

Lemma click_bookmark_console (p : Page) :
  console (click_bookmark p) = console p.
Proof. by rewrite click_bookmark_shape. Qed.

Lemma click_bookmark_at_icons (i : nat) (b : Board)
    (ic : option (gmap string string)) :
  icons b !! i = Some ic ->
  click_bookmark_at i b =
    {| icons :=
         <[i := icon (click_bookmark
                        {| icon := ic; console := [];
                           propagation_stopped := false |})]> (icons b);
       lines := lines b |}.
Proof.
  intros Hi. unfold click_bookmark_at. rewrite Hi.
  rewrite click_bookmark_console. simpl. f_equal. f_equal.
  by apply click_bookmark_icon_only.
Qed.

(** X15: with several bookmark buttons on the page, a click on one of
    them changes the icon of that button only: the icons of the other
    buttons, their number and the console are as before; a click past the
    last button changes nothing. *)
Theorem click_bookmark_at_others (i : nat) (b : Board) :
  length (icons (click_bookmark_at i b)) = length (icons b) /\
  lines (click_bookmark_at i b) = lines b /\
  (forall j, j <> i -> icons (click_bookmark_at i b) !! j = icons b !! j) /\
  (length (icons b) <= i -> click_bookmark_at i b = b)%nat.
Proof.
  destruct (icons b !! i) as [ic|] eqn:Hi.
  - rewrite (click_bookmark_at_icons _ _ _ Hi). simpl.
    split; [apply length_insert|]. split; [done|]. split.
    + intros j Hj. by apply list_lookup_insert_ne.
    + intros Hlen. apply lookup_lt_Some in Hi. lia.
  - unfold click_bookmark_at. rewrite Hi. done.
Qed.

(** X16: clicks on two different bookmark buttons commute. *)
Theorem click_bookmark_at_commute (i j : nat) (b : Board) :
  i <> j ->
  click_bookmark_at i (click_bookmark_at j b) =
  click_bookmark_at j (click_bookmark_at i b).
Proof.
  intros Hij.
  destruct (icons b !! i) as [ici|] eqn:Hi, (icons b !! j) as [icj|] eqn:Hj.
  - rewrite (click_bookmark_at_icons j b icj Hj),
      (click_bookmark_at_icons i b ici Hi).
    rewrite (click_bookmark_at_icons i _ ici)
      by (simpl; by rewrite list_lookup_insert_ne).
    rewrite (click_bookmark_at_icons j _ icj)
      by (simpl; by rewrite list_lookup_insert_ne).
    simpl. f_equal. by apply list_insert_insert_ne.
  - rewrite (click_bookmark_at_icons i b ici Hi).
    assert (Hb : click_bookmark_at j b = b)
      by (unfold click_bookmark_at; by rewrite Hj).
    rewrite Hb, (click_bookmark_at_icons i b ici Hi).
    unfold click_bookmark_at. simpl.
    by rewrite list_lookup_insert_ne, Hj.
  - rewrite (click_bookmark_at_icons j b icj Hj).
    assert (Hb : click_bookmark_at i b = b)
      by (unfold click_bookmark_at; by rewrite Hi).
    rewrite Hb, (click_bookmark_at_icons j b icj Hj).
    unfold click_bookmark_at. simpl.
    by rewrite list_lookup_insert_ne, Hi.
  - assert (Hbi : click_bookmark_at i b = b)
      by (unfold click_bookmark_at; by rewrite Hi).
    assert (Hbj : click_bookmark_at j b = b)
      by (unfold click_bookmark_at; by rewrite Hj).
    by rewrite Hbj, Hbi, Hbj.
Qed.

Lemma click_bookmark_at_commute_witness :
  click_bookmark_at 0 (click_bookmark_at 2 sample_board) =
  click_bookmark_at 2 (click_bookmark_at 0 sample_board).
Proof.
  apply (click_bookmark_at_commute 0 2 sample_board). lia.
Defined.

(** X17: leaving a job card after entering it.  On a card with the class
    [job-card-hover] the highlight stays as [mouseenter] set it.  On any
    other card the two properties end at the fixed resting values
    (['none'] and ['#CFD4D1']), exactly as if the card had only been left:
    the inline values the card had before the hover are not brought
    back. *)
Theorem hover_enter_then_leave (c : Card) :
  jobCard_onmouseleave (jobCard_onmouseenter c) =
    (if contains c "job-card-hover"
     then jobCard_onmouseenter c
     else jobCard_onmouseleave c) /\
  (contains c "job-card-hover" = false ->
   style (jobCard_onmouseleave (jobCard_onmouseenter c)) !! "boxShadow"
     = Some "none" /\
   style (jobCard_onmouseleave (jobCard_onmouseenter c)) !! "borderColor"
     = Some "#CFD4D1").
Proof.
  unfold jobCard_onmouseleave, jobCard_onmouseenter, contains, set_style.
  simpl. destruct (bool_decide _) eqn:Hc; simpl.
  - split; [done|]. discriminate.
  - split.
    + f_equal. apply map_eq. intros k.
      destruct (decide (k = "borderColor")) as [->|Hk1];
        [by rewrite !lookup_insert_eq
        |rewrite !(lookup_insert_ne _ "borderColor") by done].
      destruct (decide (k = "boxShadow")) as [->|Hk2];
        [by rewrite !lookup_insert_eq|].
      by rewrite !lookup_insert_ne.
    + intros _. split.
      * by rewrite lookup_insert_ne, lookup_insert_eq.
      * by rewrite lookup_insert_eq.
Qed.

Lemma hover_enter_then_leave_witness :
  jobCard_onmouseleave (jobCard_onmouseenter sample_card) =
    (if contains sample_card "job-card-hover"
     then jobCard_onmouseenter sample_card
     else jobCard_onmouseleave sample_card) /\
  (contains sample_card "job-card-hover" = false ->
   style (jobCard_onmouseleave (jobCard_onmouseenter sample_card))
     !! "boxShadow" = Some "none" /\
   style (jobCard_onmouseleave (jobCard_onmouseenter sample_card))
     !! "borderColor" = Some "#CFD4D1").
Proof. exact (hover_enter_then_leave sample_card). Defined.


(** X19: a click on an icon button writes one line, the [aria-label]
    followed by [clicked], with [null] for a button without the label, and
    unlike the bookmark button it lets the click go on to the listeners of
    its ancestors. *)
Theorem iconBtn_click_bubbles (label : option string)
    (up : list (M Page unit)) (p : Page) :
  dispatch (iconBtn_onclick label :: up) (new_event p) =
  dispatch up
    {| icon := icon p;
       console := (console p ++ [(template label ++ " clicked")%string])%list;
       propagation_stopped := false |} /\
  console (dispatch [iconBtn_onclick label; jobCard_onclick] (new_event p)) =
    (console p ++
     [(template label ++ " clicked")%string; "Job card clicked"])%list.
Proof.
  split; [reflexivity|]. simpl. by rewrite <- app_assoc.
Qed.

(** X20: a click on a same-page link always cancels the default jump,
    also when the [href] is not a valid selector (such as a bare [#]) and
    [querySelector] throws.  It scrolls at most once: smoothly, to the
    start of the element the [href] selects, when there is one. *)
Theorem anchor_click_scrolls (document : string -> option (option string))
    (href : string) (v : Viewport) :
  defaultPrevented (snd (anchor_onclick document href v)) = true /\
  scrolled (snd (anchor_onclick document href v)) =
    (scrolled v ++
     match document href with
     | Some (Some el) => [(el, "smooth", "start")]
     | _ => []
     end)%list /\
  ((exists e, fst (anchor_onclick document href v) = Throw e) <->
   document href = None).
Proof.
  unfold anchor_onclick, preventDefault, querySelector, scrollIntoView, bind,
    modify, ret, throw. simpl.
  destruct (document href) as [[el|]|]; simpl;
    (split; [done|]); (split; [by rewrite ?app_nil_r|]).
  - split; [by intros [e He]|done].
  - split; [by intros [e He]|done].
  - split; [done|]. intros _. by eexists.
Qed.

(** The three kinds of link, run. *)
Example anchor_click_runs :
  anchor_onclick sample_document "#ofertas" at_top =
    (Normal tt, {| defaultPrevented := true;
                   scrolled := [("section#ofertas", "smooth", "start")] |}) /\
  anchor_onclick sample_document "#contacto" at_top =
    (Normal tt, {| defaultPrevented := true; scrolled := [] |}) /\
  anchor_onclick sample_document "#" at_top =
    (Throw (VError "SyntaxError"),
     {| defaultPrevented := true; scrolled := [] |}).
Proof. repeat split. Qed.

End LandingPage.
